(** * Connection builders of the NEST kernel ([nestkernel/conn_builder.h])

    A shallow embedding of the builder hierarchy declared in
    [conn_builder.h]: the base class [ConnBuilder], its inline member
    functions, the virtual member functions with their defaults and the
    overrides of the derived rule builders, followed by the properties the
    specification states about them.

    Pointers ([ConnParameter*], [NodeCollectionPTR]) are addresses into
    stores kept in the kernel state, so that two handles are equal exactly
    when they name the same object and a parameter reached through two
    vectors of the builder is one object. *)

From stdpp Require Import gmap strings list fin_maps.

Local Open Scope string_scope.
Local Open Scope list_scope.

(** ** Exceptions and outcomes *)

(** [KernelException] and [NotImplemented] are thrown by the header itself.
    [ConfigurationError] is the class of the error taxonomy of the
    specification raised by the parts of [connect] that are not defined in
    the header. *)
Inductive Exception : Type :=
| KernelException (msg : string)
| NotImplemented (msg : string)
| ConfigurationError (msg : string).

(** Result of a call: a value, a thrown exception, or undefined behaviour
    (reading element 0 of an empty [std::vector]). *)
Inductive Outcome (A : Type) : Type :=
| Return (a : A)
| Throw (e : Exception)
| Undefined.

Arguments Return {A} a.
Arguments Throw {A} e.
Arguments Undefined {A}.

(** ** The rule builders *)

(** The classes derived from [ConnBuilder] in the header, one constructor
    per class ([OneToOneBuilder], [AllToAllBuilder], ...). *)
Inductive Rule : Type :=
| OneToOne
| AllToAll
| FixedInDegree
| FixedOutDegree
| FixedTotalNumber
| Bernoulli
| BernoulliAstro
| SymmetricBernoulli
| SP.

#[global] Instance Rule_eq_dec : EqDecision Rule.
Proof. solve_decision. Defined.

Definition all_rules : list Rule :=
  [OneToOne; AllToAll; FixedInDegree; FixedOutDegree; FixedTotalNumber;
   Bernoulli; BernoulliAstro; SymmetricBernoulli; SP].

(** The data members of [ConnBuilder] that the member functions below read
    or write. [dynamic_class] is the class the object was constructed as.
    A [NodeCollectionPTR] is the address of the collection it shares, a
    [ConnParameter*] the address of the parameter, [None] the null pointer
    ("null-pointer indicates that default be used"). *)
Record ConnBuilder : Type := mkConnBuilder {
  dynamic_class : Rule;
  sources_ : N;
  targets_ : N;
  allow_autapses_ : bool;
  allow_multapses_ : bool;
  make_symmetric_ : bool;
  creates_symmetric_connections_ : bool;
  pre_synaptic_element_name_ : string;
  post_synaptic_element_name_ : string;
  use_pre_synaptic_element_ : bool;
  use_post_synaptic_element_ : bool;
  parameters_requiring_skipping_ : list N;
  synapse_model_id_ : list N;
  default_weight_and_delay_ : list bool;
  default_weight_ : list bool;
  default_delay_ : list bool;
  weights_ : list (option N);
  delays_ : list (option N);
  synapse_params_ : list (gmap string N)
}.

Definition push_back_parameters_requiring_skipping_ (p : N) (b : ConnBuilder)
  : ConnBuilder :=
  {| dynamic_class := dynamic_class b;
     sources_ := sources_ b;
     targets_ := targets_ b;
     allow_autapses_ := allow_autapses_ b;
     allow_multapses_ := allow_multapses_ b;
     make_symmetric_ := make_symmetric_ b;
     creates_symmetric_connections_ := creates_symmetric_connections_ b;
     pre_synaptic_element_name_ := pre_synaptic_element_name_ b;
     post_synaptic_element_name_ := post_synaptic_element_name_ b;
     use_pre_synaptic_element_ := use_pre_synaptic_element_ b;
     use_post_synaptic_element_ := use_post_synaptic_element_ b;
     parameters_requiring_skipping_ := parameters_requiring_skipping_ b ++ [p];
     synapse_model_id_ := synapse_model_id_ b;
     default_weight_and_delay_ := default_weight_and_delay_ b;
     default_weight_ := default_weight_ b;
     default_delay_ := default_delay_ b;
     weights_ := weights_ b;
     delays_ := delays_ b;
     synapse_params_ := synapse_params_ b |}.

(** ** Inline members of [ConnBuilder] *)

(** [ConnBuilder::get_synapse_model]. *)
Definition get_synapse_model (b : ConnBuilder) : Outcome N :=
  if bool_decide (1 < length (synapse_model_id_ b))%nat then
    Throw (KernelException
      "Can only retrieve synapse model when one synapse per connection is used.")
  else
    match synapse_model_id_ b !! 0%nat with
    | Some m => Return m
    | None => Undefined
    end.

(** [ConnBuilder::get_default_delay]: the guard reads the size of
    [synapse_model_id_], the value comes from [default_delay_]. *)
Definition get_default_delay (b : ConnBuilder) : Outcome bool :=
  if bool_decide (1 < length (synapse_model_id_ b))%nat then
    Throw (KernelException
      "Can only retrieve default delay when one synapse per connection is used.")
  else
    match default_delay_ b !! 0%nat with
    | Some d => Return d
    | None => Undefined
    end.

(** [ConnBuilder::use_structural_plasticity_]. *)
Definition use_structural_plasticity_ (b : ConnBuilder) : bool :=
  use_pre_synaptic_element_ b && use_post_synaptic_element_ b.

(** ** Parameters, populations, random streams and the kernel state *)

(** Modelled from the spec: the class [ConnParameter] ([conn_parameter.h]
    is not among the sources). A Parameter Source is a tagged variant
    {constant, per-worker array with cursor, random-distribution sampler};
    the array variant stores an explicit cursor index per worker alongside
    the values, a worker that has not read yet is at index 0. Values are
    opaque to the builder; integers stand for them. *)
Inductive ConnParameter : Type :=
| Constant (value : Z)
| Array (values : list Z) (next_ : gmap N N)
| Random (distribution : N).

Definition is_array (p : ConnParameter) : bool :=
  match p with
  | Array _ _ => true
  | _ => false
  end.

Definition is_scalar (p : ConnParameter) : bool :=
  match p with
  | Constant _ => true
  | _ => false
  end.

(** Cursor of worker [tid] in an array parameter. *)
Definition cursor (p : ConnParameter) (tid : N) : N :=
  match p with
  | Array _ next => default 0%N (next !! tid)
  | _ => 0%N
  end.

(** Modelled from the spec: [ConnParameter::skip( tid, n_skip )] advances
    the cursor of worker [tid] by [n_skip]; parameters without a cursor
    ignore the call. *)
Definition skip (tid n_skip : N) (p : ConnParameter) : ConnParameter :=
  match p with
  | Array values next => Array values (<[tid := (cursor p tid + n_skip)%N]> next)
  | _ => p
  end.

(** Modelled from the spec: a population handle ([node_collection.h] is not
    among the sources) refers to an ordered collection of node identifiers,
    possibly backed by a compact range representation. *)
Inductive NodeCollection : Type :=
| Primitive (first last : N)
| Composite (ids : list N).

Definition nodes (nc : NodeCollection) : list N :=
  match nc with
  | Primitive first last =>
      (λ i, (first + N.of_nat i)%N) <$> seq 0 (N.to_nat (last + 1 - first))
  | Composite ids => ids
  end.

Definition is_range (nc : NodeCollection) : bool :=
  match nc with
  | Primitive _ _ => true
  | Composite _ => false
  end.

(** Modelled from the spec: a random stream of one worker. Every
    deterministic generator is the sequence of outcomes of its successive
    Bernoulli trials (a uniform draw compared with the probability [p_])
    together with the number of draws made so far. *)
Record Rng : Type := mkRng {
  outcomes : nat → bool;
  position : nat
}.

Definition bernoulli_trial (r : Rng) : bool * Rng :=
  (outcomes r (position r), mkRng (outcomes r) (S (position r))).

(** One directed edge held by the connection sink. *)
Record Connection : Type := mkConnection {
  source : N;
  target : N;
  syn_id : N
}.

#[global] Instance Connection_eq_dec : EqDecision Connection.
Proof. solve_decision. Defined.

(** The state outside the builder that its member functions read and
    write: the parameter objects and node collections by address, the
    number of nodes local to the process, the edges created so far and the
    random stream. *)
Record Kernel : Type := mkKernel {
  conn_parameters : gmap N ConnParameter;
  node_collections : gmap N NodeCollection;
  num_local_nodes : N;
  connections : list Connection;
  rng : Rng
}.

Definition set_conn_parameters (h : gmap N ConnParameter) (k : Kernel) : Kernel :=
  mkKernel h (node_collections k) (num_local_nodes k) (connections k) (rng k).

Definition set_rng (r : Rng) (k : Kernel) : Kernel :=
  mkKernel (conn_parameters k) (node_collections k) (num_local_nodes k)
    (connections k) r.

Definition add_connections (es : list Connection) (k : Kernel) : Kernel :=
  mkKernel (conn_parameters k) (node_collections k) (num_local_nodes k)
    (connections k ++ es) (rng k).

(** ** Parameter skipping *)

(** [ConnBuilder::register_parameters_requiring_skipping_]: [param] is the
    address of the parameter the reference is bound to. *)
Definition register_parameters_requiring_skipping_
    (h : gmap N ConnParameter) (b : ConnBuilder) (param : N) : ConnBuilder :=
  match h !! param with
  | Some p =>
      if is_array p then push_back_parameters_requiring_skipping_ param b else b
  | None => b
  end.

(** [ConnBuilder::skip_conn_parameter_]: the loop over
    [parameters_requiring_skipping_], each step calling [skip] on the
    object the pointer refers to. *)
Definition skip_conn_parameter_ (b : ConnBuilder) (target_thread n_skip : N)
    (k : Kernel) : Kernel :=
  set_conn_parameters
    (foldl (λ h it, alter (skip target_thread n_skip) it h)
       (conn_parameters k) (parameters_requiring_skipping_ b))
    k.

(** Whether the object at an address is an array parameter. *)
Definition is_array_at (h : gmap N ConnParameter) (p : N) : bool :=
  match h !! p with
  | Some c => is_array c
  | None => false
  end.

(** The constructor registers every parameter it creates once, in order. *)
Definition register_all (h : gmap N ConnParameter) (b : ConnBuilder)
    (params : list N) : ConnBuilder :=
  foldl (register_parameters_requiring_skipping_ h) b params.

(** ** Scalar parameters and loop selection *)

(** The parameters a builder holds: the non-null weights and delays and
    every entry of the per-slot parameter maps. *)
Definition parameter_pointers (b : ConnBuilder) : list N :=
  omap id (weights_ b) ++ omap id (delays_ b)
  ++ concat ((λ m : gmap string N, snd <$> map_to_list m) <$> synapse_params_ b).

Definition is_scalar_at (h : gmap N ConnParameter) (p : N) : bool :=
  match h !! p with
  | Some c => is_scalar c
  | None => false
  end.

(** Modelled from the spec: [ConnBuilder::all_parameters_scalar_] is
    declared in the header and defined elsewhere; it holds when every
    parameter of the builder is scalar. *)
Definition all_parameters_scalar_ (b : ConnBuilder) (k : Kernel) : bool :=
  forallb (is_scalar_at (conn_parameters k)) (parameter_pointers b).

(** Modelled from the spec: [ConnBuilder::loop_over_targets_] is declared
    in the header and defined elsewhere. Following its documentation there,
    conventional looping over targets is used if any connection parameter
    requires skipping, if the targets are not given as a simple range, or
    if the number of targets is smaller than the number of local nodes.
    [None] stands for a null target handle. *)
Definition loop_over_targets_ (b : ConnBuilder) (k : Kernel) : option bool :=
  match node_collections k !! targets_ b with
  | Some tc =>
      Some ((N.of_nat (length (nodes tc)) <? num_local_nodes k)%N
            || negb (is_range tc)
            || bool_decide (0 < length (parameters_requiring_skipping_ b))%nat)
  | None => None
  end.



(** ** Virtual members: defaults of the base class and overrides *)

Module ConnBuilderBase.

Definition supports_symmetric : bool := false.

Definition is_symmetric : bool := false.

Definition requires_proxies : bool := true.

Definition sp_connect_ (k : Kernel) : Outcome unit * Kernel :=
  (Throw (NotImplemented
     "This connection rule is not implemented for structural plasticity."), k).

Definition disconnect_ (k : Kernel) : Outcome unit * Kernel :=
  (Throw (NotImplemented "This disconnection rule is not implemented."), k).

Definition sp_disconnect_ (k : Kernel) : Outcome unit * Kernel :=
  (Throw (NotImplemented
     "This connection rule is not implemented for structural plasticity."), k).

End ConnBuilderBase.

Module OneToOneBuilder.

Definition supports_symmetric : bool := true.

Definition requires_proxies : bool := false.

End OneToOneBuilder.

Module AllToAllBuilder.

Definition is_symmetric (b : ConnBuilder) (k : Kernel) : bool :=
  bool_decide (sources_ b = targets_ b) && all_parameters_scalar_ b k.

Definition requires_proxies : bool := false.

End AllToAllBuilder.

(** Modelled from the spec: [ConnBuilder::single_connect_] is declared in
    the header and defined elsewhere. It creates one edge from the source to
    the target for each synapse-model slot of the builder; the attribute
    values an edge carries are not represented. *)
Definition single_connect_ (b : ConnBuilder) (snode_id tnode_id : N)
    (k : Kernel) : Kernel :=
  add_connections ((λ m, mkConnection snode_id tnode_id m) <$> synapse_model_id_ b) k.

Module SymmetricBernoulliBuilder.

Definition supports_symmetric : bool := true.

(** Inner loop: the node [a] against every later node of the population,
    one Bernoulli trial per pair, both directions created from the trial. *)
Fixpoint connect_pairs_from (b : ConnBuilder) (a : N) (later : list N)
    (k : Kernel) : Kernel :=
  match later with
  | [] => k
  | c :: later' =>
      let (accept, r) := bernoulli_trial (rng k) in
      let k1 := set_rng r k in
      let k2 :=
        if accept then single_connect_ b c a (single_connect_ b a c k1) else k1 in
      connect_pairs_from b a later' k2
  end.

(** Outer loop over the population: only pairs of positions [i < j]. *)
Fixpoint connect_upper_triangle (b : ConnBuilder) (pop : list N)
    (k : Kernel) : Kernel :=
  match pop with
  | [] => k
  | a :: later => connect_upper_triangle b later (connect_pairs_from b a later k)
  end.

(** Modelled from the spec: [SymmetricBernoulliBuilder::connect_] is
    declared in the header and defined elsewhere. The rule requires source
    population identity with target population, builds only ordered pairs
    [i<j], draws one Bernoulli trial per unordered pair and on acceptance
    creates both directed edges from the same trial. *)
Definition connect_ (b : ConnBuilder) (k : Kernel) : Outcome unit * Kernel :=
  if bool_decide (sources_ b = targets_ b) then
    match node_collections k !! sources_ b with
    | Some nc => (Return (), connect_upper_triangle b (nodes nc) k)
    | None => (Undefined, k)
    end
  else
    (Throw (ConfigurationError
       "Symmetric Bernoulli requires identical source and target populations."), k).

End SymmetricBernoulliBuilder.

(** The virtual member functions of [ConnBuilder] apart from the three
    predicates. *)
Inductive VirtualMember : Type :=
| m_connect_
| m_sp_connect_
| m_disconnect_
| m_sp_disconnect_.

(** Which class declares an override of which member in the header.
    [connect_] is pure virtual in the base, so every rule defines it;
    [SPBuilder] overrides [connect_] only (its [sp_connect] is a different,
    non-virtual member). *)
Definition overrides (r : Rule) (m : VirtualMember) : bool :=
  match m, r with
  | m_connect_, _ => true
  | _, OneToOne => true
  | _, AllToAll => true
  | _, _ => false
  end.

Definition supports_symmetric (b : ConnBuilder) : bool :=
  match dynamic_class b with
  | OneToOne => OneToOneBuilder.supports_symmetric
  | SymmetricBernoulli => SymmetricBernoulliBuilder.supports_symmetric
  | _ => ConnBuilderBase.supports_symmetric
  end.

Definition is_symmetric (b : ConnBuilder) (k : Kernel) : bool :=
  match dynamic_class b with
  | AllToAll => AllToAllBuilder.is_symmetric b k
  | _ => ConnBuilderBase.is_symmetric
  end.

Definition requires_proxies (b : ConnBuilder) : bool :=
  match dynamic_class b with
  | OneToOne => OneToOneBuilder.requires_proxies
  | AllToAll => AllToAllBuilder.requires_proxies
  | _ => ConnBuilderBase.requires_proxies
  end.

Section Dispatch.

(** The bodies of the overrides that the header only declares: the
    connection algorithms of the other rules and the disconnection and
    structural-plasticity members of the one-to-one and all-to-all
    builders. *)
Variable out_of_line :
  Rule → VirtualMember → ConnBuilder → Kernel → Outcome unit * Kernel.

Definition connect_ (b : ConnBuilder) (k : Kernel) : Outcome unit * Kernel :=
  match dynamic_class b with
  | SymmetricBernoulli => SymmetricBernoulliBuilder.connect_ b k
  | r => out_of_line r m_connect_ b k
  end.

Definition sp_connect_ (b : ConnBuilder) (k : Kernel) : Outcome unit * Kernel :=
  if overrides (dynamic_class b) m_sp_connect_
  then out_of_line (dynamic_class b) m_sp_connect_ b k
  else ConnBuilderBase.sp_connect_ k.

Definition disconnect_ (b : ConnBuilder) (k : Kernel) : Outcome unit * Kernel :=
  if overrides (dynamic_class b) m_disconnect_
  then out_of_line (dynamic_class b) m_disconnect_ b k
  else ConnBuilderBase.disconnect_ k.

Definition sp_disconnect_ (b : ConnBuilder) (k : Kernel) : Outcome unit * Kernel :=
  if overrides (dynamic_class b) m_sp_disconnect_
  then out_of_line (dynamic_class b) m_sp_disconnect_ b k
  else ConnBuilderBase.sp_disconnect_ k.

(** Modelled from the spec: [ConnBuilder::connect] ("Connect with or
    without structural plasticity") is declared in the header and defined
    elsewhere. For a rule that is not symmetric-capable [make_symmetric]
    must be false, else the call fails with a configuration error, raised
    before any worker starts; otherwise the call dispatches to the rule's
    algorithm, the structural-plasticity one when both synaptic elements
    are in use. *)
Definition connect (b : ConnBuilder) (k : Kernel) : Outcome unit * Kernel :=
  if make_symmetric_ b && negb (supports_symmetric b) then
    (Throw (ConfigurationError
       "This connection rule does not support symmetric connections."), k)
  else if use_structural_plasticity_ b then sp_connect_ b k
  else connect_ b k.

(** Modelled from the spec: [ConnBuilder::disconnect] ("Delete synapses
    with or without structural plasticity") is declared in the header and
    defined elsewhere; it dispatches to the rule's disconnection member,
    the structural-plasticity one when both synaptic elements are in use. *)
Definition disconnect (b : ConnBuilder) (k : Kernel) : Outcome unit * Kernel :=
  if use_structural_plasticity_ b then sp_disconnect_ b k
  else disconnect_ b k.

End Dispatch.

(** ** The pairs and edges the symmetric Bernoulli rule prescribes *)

(** The pairs of a population at positions [i < j], in enumeration order. *)
Fixpoint ordered_pairs (pop : list N) : list (N * N) :=
  match pop with
  | [] => []
  | a :: later => (pair a <$> later) ++ ordered_pairs later
  end.

(** The pairs accepted when the [n]-th pair is decided by the [n]-th trial
    after position [pos] of the stream. *)
Fixpoint accepted (o : nat → bool) (pos : nat) (pairs : list (N * N))
  : list (N * N) :=
  match pairs with
  | [] => []
  | p :: ps => (if o pos then [p] else []) ++ accepted o (S pos) ps
  end.

(** The edges from [s] to [t]: one per synapse-model slot. *)
Definition edges_between (b : ConnBuilder) (s t : N) : list Connection :=
  (λ m, mkConnection s t m) <$> synapse_model_id_ b.

Definition both_directions (b : ConnBuilder) (p : N * N) : list Connection :=
  edges_between b p.1 p.2 ++ edges_between b p.2 p.1.

Definition reciprocal (e : Connection) : Connection :=
  mkConnection (target e) (source e) (syn_id e).

(** ** Builders used as concrete inputs *)

(** A builder of rule [r] over the populations at addresses [s] and [t],
    with the given synapse-model slots and default-delay flags and no
    parameter set. *)
Definition plain_builder (r : Rule) (s t : N) (sym : bool)
    (models : list N) (dflt_delay : list bool) : ConnBuilder :=
  {| dynamic_class := r;
     sources_ := s;
     targets_ := t;
     allow_autapses_ := true;
     allow_multapses_ := true;
     make_symmetric_ := sym;
     creates_symmetric_connections_ := false;
     pre_synaptic_element_name_ := "";
     post_synaptic_element_name_ := "";
     use_pre_synaptic_element_ := false;
     use_post_synaptic_element_ := false;
     parameters_requiring_skipping_ := [];
     synapse_model_id_ := models;
     default_weight_and_delay_ := dflt_delay;
     default_weight_ := dflt_delay;
     default_delay_ := dflt_delay;
     weights_ := [];
     delays_ := [];
     synapse_params_ := [] |}.

(** The same builder with the two synaptic-element flags set as given. *)
Definition with_elements (pre post : bool) (b : ConnBuilder) : ConnBuilder :=
  {| dynamic_class := dynamic_class b;
     sources_ := sources_ b;
     targets_ := targets_ b;
     allow_autapses_ := allow_autapses_ b;
     allow_multapses_ := allow_multapses_ b;
     make_symmetric_ := make_symmetric_ b;
     creates_symmetric_connections_ := creates_symmetric_connections_ b;
     pre_synaptic_element_name_ := if pre then "Axon" else "";
     post_synaptic_element_name_ := if post then "Den_ex" else "";
     use_pre_synaptic_element_ := pre;
     use_post_synaptic_element_ := post;
     parameters_requiring_skipping_ := parameters_requiring_skipping_ b;
     synapse_model_id_ := synapse_model_id_ b;
     default_weight_and_delay_ := default_weight_and_delay_ b;
     default_weight_ := default_weight_ b;
     default_delay_ := default_delay_ b;
     weights_ := weights_ b;
     delays_ := delays_ b;
     synapse_params_ := synapse_params_ b |}.

(** The same builder holding the given weights, delays and per-slot
    parameter maps. *)
Definition with_parameters (ws ds : list (option N))
    (ps : list (gmap string N)) (b : ConnBuilder) : ConnBuilder :=
  {| dynamic_class := dynamic_class b;
     sources_ := sources_ b;
     targets_ := targets_ b;
     allow_autapses_ := allow_autapses_ b;
     allow_multapses_ := allow_multapses_ b;
     make_symmetric_ := make_symmetric_ b;
     creates_symmetric_connections_ := creates_symmetric_connections_ b;
     pre_synaptic_element_name_ := pre_synaptic_element_name_ b;
     post_synaptic_element_name_ := post_synaptic_element_name_ b;
     use_pre_synaptic_element_ := use_pre_synaptic_element_ b;
     use_post_synaptic_element_ := use_post_synaptic_element_ b;
     parameters_requiring_skipping_ := parameters_requiring_skipping_ b;
     synapse_model_id_ := synapse_model_id_ b;
     default_weight_and_delay_ := default_weight_and_delay_ b;
     default_weight_ := default_weight_ b;
     default_delay_ := default_delay_ b;
     weights_ := ws;
     delays_ := ds;
     synapse_params_ := ps |}.

(** A kernel state with three parameters (a constant at address 1, arrays
    at 2 and 3 with worker 0 of the first already at index 4, a sampler at
    4), range populations at addresses 10 and 12 and a list population at 11;
    the random stream accepts at every even draw. *)
Definition sample_parameters : gmap N ConnParameter :=
  <[1%N := Constant 5]>
  (<[2%N := Array [1; 2; 3; 4; 5; 6; 7; 8]%Z {[0%N := 4%N]}]>
  (<[3%N := Array [10; 20; 30]%Z ∅]>
  (<[4%N := Random 0]> ∅))).

Definition sample_kernel : Kernel :=
  {| conn_parameters := sample_parameters;
     node_collections :=
       <[10%N := Primitive 1 4]>
       (<[11%N := Composite [7; 3; 9]%N]>
       (<[12%N := Primitive 1 8]> ∅));
     num_local_nodes := 6;
     connections := [mkConnection 1 2 0];
     rng := mkRng Nat.even 0 |}.

(** A stand-in for the member bodies defined outside the header: each
    returns without touching the state. *)
Definition no_op_bodies (_ : Rule) (_ : VirtualMember) (_ : ConnBuilder)
    (k : Kernel) : Outcome unit * Kernel :=
  (Return (), k).

(** ** Further members and measures *)

Module SPBuilder.

(** [SPBuilder::get_pre_synaptic_element_name]: the name held by the
    builder, as a string. *)
Definition get_pre_synaptic_element_name (b : ConnBuilder) : string :=
  pre_synaptic_element_name_ b.

(** [SPBuilder::get_post_synaptic_element_name]. *)
Definition get_post_synaptic_element_name (b : ConnBuilder) : string :=
  post_synaptic_element_name_ b.

End SPBuilder.

(** How many entries of [parameters_requiring_skipping_] point to the
    parameter at address [p]. *)
Definition times_registered (b : ConnBuilder) (p : N) : nat :=
  length (filter (λ x, x = p) (parameters_requiring_skipping_ b)).

(** How many times [p] occurs in a list of addresses. *)
Definition occurrences (params : list N) (p : N) : nat :=
  length (filter (λ x, x = p) params).

(** The builder [b] with [l] as its list of parameters to skip and every
    other data member as it is. *)
Definition set_parameters_requiring_skipping_ (l : list N) (b : ConnBuilder)
  : ConnBuilder :=
  {| dynamic_class := dynamic_class b;
     sources_ := sources_ b;
     targets_ := targets_ b;
     allow_autapses_ := allow_autapses_ b;
     allow_multapses_ := allow_multapses_ b;
     make_symmetric_ := make_symmetric_ b;
     creates_symmetric_connections_ := creates_symmetric_connections_ b;
     pre_synaptic_element_name_ := pre_synaptic_element_name_ b;
     post_synaptic_element_name_ := post_synaptic_element_name_ b;
     use_pre_synaptic_element_ := use_pre_synaptic_element_ b;
     use_post_synaptic_element_ := use_post_synaptic_element_ b;
     parameters_requiring_skipping_ := l;
     synapse_model_id_ := synapse_model_id_ b;
     default_weight_and_delay_ := default_weight_and_delay_ b;
     default_weight_ := default_weight_ b;
     default_delay_ := default_delay_ b;
     weights_ := weights_ b;
     delays_ := delays_ b;
     synapse_params_ := synapse_params_ b |}.

(** Two parameters that are the same but for the cursor of worker [tid]:
    the same constant, the same sampler, or arrays with the same values
    and the same cursor for every worker other than [tid]. *)
Definition same_except_cursor (tid : N) (c c' : ConnParameter) : Prop :=
  match c, c' with
  | Constant v, Constant v' => v = v'
  | Array values next, Array values' next' =>
      values' = values ∧ ∀ t, t ≠ tid → next' !! t = next !! t
  | Random d, Random d' => d = d'
  | _, _ => False
  end.



(** * Properties *)

(** ** Single-model accessors *)

(** C4. Whenever a builder has more than one synapse-model slot,
    [get_synapse_model] and [get_default_delay] throw a [KernelException]
    instead of returning a value; with exactly one slot they return that
    slot's model id and default-delay flag. *)
Theorem single_model_accessors (b : ConnBuilder) :
  ((1 < length (synapse_model_id_ b))%nat →
     (∃ msg, get_synapse_model b = Throw (KernelException msg)) ∧
     (∃ msg, get_default_delay b = Throw (KernelException msg))) ∧
  (∀ m d, synapse_model_id_ b = [m] → default_delay_ b = [d] →
     get_synapse_model b = Return m ∧ get_default_delay b = Return d).
Proof.
  split.
  - intros Hmany. unfold get_synapse_model, get_default_delay.
    rewrite !bool_decide_eq_true_2 by done. eauto.
  - intros m d Hm Hd. unfold get_synapse_model, get_default_delay.
    rewrite Hm, Hd. done.
Qed.

Lemma single_model_accessors_witness :
  ((∃ msg, get_synapse_model (plain_builder Bernoulli 10 11 false [3; 8]%N [true; false])
           = Throw (KernelException msg)) ∧
   (∃ msg, get_default_delay (plain_builder Bernoulli 10 11 false [3; 8]%N [true; false])
           = Throw (KernelException msg))) ∧
  (get_synapse_model (plain_builder Bernoulli 10 11 false [8]%N [true]) = Return 8%N ∧
   get_default_delay (plain_builder Bernoulli 10 11 false [8]%N [true]) = Return true).
Proof.
  split.
  - apply (single_model_accessors
             (plain_builder Bernoulli 10 11 false [3; 8]%N [true; false])).
    simpl. lia.
  - apply (single_model_accessors (plain_builder Bernoulli 10 11 false [8]%N [true]));
      reflexivity.
Defined.

(** ** Structural-plasticity mode *)

(** C9. A builder is in structural-plasticity mode exactly when both the
    pre-synaptic and the post-synaptic element are in use:
    [use_structural_plasticity_] is the conjunction of the two flags, so a
    builder with only one of them set is not in that mode. *)
Theorem structural_plasticity_iff_both_elements (b : ConnBuilder) :
  use_structural_plasticity_ b
    = use_pre_synaptic_element_ b && use_post_synaptic_element_ b ∧
  (use_structural_plasticity_ b = true ↔
     use_pre_synaptic_element_ b = true ∧ use_post_synaptic_element_ b = true) ∧
  (use_pre_synaptic_element_ b = false ∨ use_post_synaptic_element_ b = false →
     use_structural_plasticity_ b = false).
Proof.
  unfold use_structural_plasticity_. split; [done|]. split.
  - apply andb_true_iff.
  - intros [-> | ->]; [done | apply andb_false_r].
Qed.

Lemma structural_plasticity_iff_both_elements_witness :
  use_structural_plasticity_
    (with_elements true false (plain_builder OneToOne 10 10 false [0%N] [true])) = false ∧
  use_structural_plasticity_
    (with_elements false true (plain_builder OneToOne 10 10 false [0%N] [true])) = false ∧
  use_structural_plasticity_
    (with_elements true true (plain_builder OneToOne 10 10 false [0%N] [true])) = true.
Proof.
  split; [|split].
  - apply (structural_plasticity_iff_both_elements
             (with_elements true false (plain_builder OneToOne 10 10 false [0%N] [true]))).
    right. reflexivity.
  - apply (structural_plasticity_iff_both_elements
             (with_elements false true (plain_builder OneToOne 10 10 false [0%N] [true]))).
    left. reflexivity.
  - apply (structural_plasticity_iff_both_elements
             (with_elements true true (plain_builder OneToOne 10 10 false [0%N] [true]))).
    split; reflexivity.
Defined.

(** ** Proxies *)

(** C10. [requires_proxies] is true in the base class, and exactly the
    one-to-one and all-to-all builders override it to false: every other
    rule is applicable only to nodes with proxies. *)
Theorem requires_proxies_overrides :
  ConnBuilderBase.requires_proxies = true ∧
  ∀ b : ConnBuilder,
    (requires_proxies b = false ↔
       dynamic_class b = OneToOne ∨ dynamic_class b = AllToAll) ∧
    (requires_proxies b = true ↔
       dynamic_class b ≠ OneToOne ∧ dynamic_class b ≠ AllToAll).
Proof.
  split; [reflexivity|]. intros b. unfold requires_proxies.
  destruct (dynamic_class b); simpl; split; split;
    try (intros [? | ?]); try (intros [? ?]); try (intros ?);
    try discriminate; try congruence; auto.
Qed.

(** ** Symmetric connections *)

Lemma supports_symmetric_rules (b : ConnBuilder) :
  supports_symmetric b = true ↔
    dynamic_class b = OneToOne ∨ dynamic_class b = SymmetricBernoulli.
Proof.
  unfold supports_symmetric.
  destruct (dynamic_class b); simpl; split;
    try (intros [? | ?]); try (intros ?); try discriminate; auto.
Qed.

(** C5. For a builder whose rule does not declare symmetric support,
    [connect] with [make_symmetric_] set fails with a configuration error,
    with the kernel state as it was (no member body has run, no edge is
    created). The rules declaring symmetric support are one-to-one and
    symmetric Bernoulli; for them [connect] passes the guard and runs the
    rule's algorithm whatever [make_symmetric_] is. *)
Theorem make_symmetric_requires_support
    (out_of_line : Rule → VirtualMember → ConnBuilder → Kernel → Outcome unit * Kernel) :
  (∀ b k, supports_symmetric b = false → make_symmetric_ b = true →
     (∃ msg, connect out_of_line b k = (Throw (ConfigurationError msg), k)) ∧
     connections (connect out_of_line b k).2 = connections k) ∧
  (∀ b, supports_symmetric b = true ↔
     dynamic_class b = OneToOne ∨ dynamic_class b = SymmetricBernoulli) ∧
  (∀ b k, supports_symmetric b = true →
     connect out_of_line b k =
       if use_structural_plasticity_ b then sp_connect_ out_of_line b k
       else connect_ out_of_line b k).
Proof.
  split; [|split].
  - intros b k Hsup Hsym. unfold connect. rewrite Hsup, Hsym. simpl. eauto.
  - apply supports_symmetric_rules.
  - intros b k Hsup. unfold connect. rewrite Hsup, andb_false_r. done.
Qed.

Lemma make_symmetric_requires_support_witness :
  (∃ msg, connect no_op_bodies (plain_builder AllToAll 10 11 true [0%N] [true]) sample_kernel
          = (Throw (ConfigurationError msg), sample_kernel)) ∧
  connect no_op_bodies (plain_builder OneToOne 10 10 true [0%N] [true]) sample_kernel
    = (Return (), sample_kernel).
Proof.
  split.
  - apply (make_symmetric_requires_support no_op_bodies); reflexivity.
  - rewrite (proj2 (proj2 (make_symmetric_requires_support no_op_bodies)));
      reflexivity.
Defined.

(** ** Members a rule does not implement *)

Lemma overrides_false (r : Rule) (m : VirtualMember) :
  overrides r m = false ↔ m ≠ m_connect_ ∧ r ≠ OneToOne ∧ r ≠ AllToAll.
Proof.
  destruct r, m; simpl; split; try (intros (? & ? & ?)); try (intros ?);
    try discriminate; try congruence; auto.
Qed.

(** C6. For every rule that does not override the member, that is every
    rule other than one-to-one and all-to-all, [disconnect_],
    [sp_connect_] and [sp_disconnect_] throw [NotImplemented] and leave the
    state as it was; so [disconnect] on such a builder fails with
    [NotImplemented], with or without structural plasticity, and so does
    [connect] in structural-plasticity mode. *)
Theorem unimplemented_members_throw_NotImplemented
    (out_of_line : Rule → VirtualMember → ConnBuilder → Kernel → Outcome unit * Kernel)
    (b : ConnBuilder) (k : Kernel) :
  dynamic_class b ≠ OneToOne → dynamic_class b ≠ AllToAll →
  (∀ m, m ≠ m_connect_ → overrides (dynamic_class b) m = false) ∧
  (∃ msg, disconnect out_of_line b k = (Throw (NotImplemented msg), k)) ∧
  (∃ msg, disconnect_ out_of_line b k = (Throw (NotImplemented msg), k)) ∧
  (∃ msg, sp_connect_ out_of_line b k = (Throw (NotImplemented msg), k)) ∧
  (∃ msg, sp_disconnect_ out_of_line b k = (Throw (NotImplemented msg), k)) ∧
  (use_structural_plasticity_ b = true → make_symmetric_ b = false →
     ∃ msg, connect out_of_line b k = (Throw (NotImplemented msg), k)).
Proof.
  intros H1 H2.
  assert (Hov : ∀ m, m ≠ m_connect_ → overrides (dynamic_class b) m = false).
  { intros m Hm. by apply overrides_false. }
  split; [exact Hov|].
  unfold disconnect, connect, disconnect_, sp_connect_, sp_disconnect_.
  rewrite !Hov by discriminate.
  unfold ConnBuilderBase.disconnect_, ConnBuilderBase.sp_connect_,
    ConnBuilderBase.sp_disconnect_.
  repeat split; eauto.
  - destruct (use_structural_plasticity_ b); eauto.
  - intros -> ->. simpl. eauto.
Qed.

Lemma unimplemented_members_throw_NotImplemented_witness :
  ∃ msg, disconnect no_op_bodies (plain_builder FixedInDegree 10 11 false [0%N] [true])
           sample_kernel
         = (Throw (NotImplemented msg), sample_kernel).
Proof.
  apply (unimplemented_members_throw_NotImplemented no_op_bodies
           (plain_builder FixedInDegree 10 11 false [0%N] [true]) sample_kernel);
    discriminate.
Defined.

(** ** The symmetric special case of the all-to-all rule *)

Lemma all_parameters_scalar_spec (b : ConnBuilder) (k : Kernel) :
  all_parameters_scalar_ b k = true ↔
    ∀ p, p ∈ parameter_pointers b →
      ∃ v, conn_parameters k !! p = Some (Constant v).
Proof.
  unfold all_parameters_scalar_. rewrite forallb_forall. split.
  - intros H p Hp. apply list_elem_of_In, H in Hp. unfold is_scalar_at in Hp.
    destruct (conn_parameters k !! p) as [[v| |]|]; try discriminate. eauto.
  - intros H p Hp. apply list_elem_of_In, H in Hp as [v Hv].
    unfold is_scalar_at. by rewrite Hv.
Qed.

(** C8. For an all-to-all builder, [is_symmetric] returns true if and only
    if the source and target handles are the same population and
    [all_parameters_scalar_] holds, that is every weight, delay and other
    synapse parameter of the builder is a constant. *)
Theorem all_to_all_is_symmetric_iff (b : ConnBuilder) (k : Kernel) :
  dynamic_class b = AllToAll →
  (is_symmetric b k = true ↔
     sources_ b = targets_ b ∧ all_parameters_scalar_ b k = true) ∧
  (is_symmetric b k = true ↔
     sources_ b = targets_ b ∧
     ∀ p, p ∈ parameter_pointers b →
       ∃ v, conn_parameters k !! p = Some (Constant v)).
Proof.
  intros Hcls. unfold is_symmetric. rewrite Hcls.
  unfold AllToAllBuilder.is_symmetric.
  rewrite andb_true_iff, bool_decide_eq_true, all_parameters_scalar_spec.
  done.
Qed.

Lemma all_to_all_is_symmetric_iff_witness :
  is_symmetric
    (with_parameters [Some 1%N] [None] [{["tau" := 1%N]}]
       (plain_builder AllToAll 10 10 false [0%N] [true])) sample_kernel = true ∧
  is_symmetric
    (with_parameters [Some 1%N] [None] [{["tau" := 1%N]}]
       (plain_builder AllToAll 10 11 false [0%N] [true])) sample_kernel = false ∧
  is_symmetric
    (with_parameters [Some 2%N] [None] []
       (plain_builder AllToAll 10 10 false [0%N] [true])) sample_kernel = false.
Proof.
  split; [|split].
  - destruct (all_to_all_is_symmetric_iff
                (with_parameters [Some 1%N] [None] [{["tau" := 1%N]}]
                   (plain_builder AllToAll 10 10 false [0%N] [true])) sample_kernel
                eq_refl) as [Hiff _].
    apply Hiff. split; reflexivity.
  - apply not_true_is_false. intros H.
    destruct (all_to_all_is_symmetric_iff
                (with_parameters [Some 1%N] [None] [{["tau" := 1%N]}]
                   (plain_builder AllToAll 10 11 false [0%N] [true])) sample_kernel
                eq_refl) as [Hiff _].
    apply Hiff in H as [H _]. discriminate H.
  - apply not_true_is_false. intros H.
    destruct (all_to_all_is_symmetric_iff
                (with_parameters [Some 2%N] [None] []
                   (plain_builder AllToAll 10 10 false [0%N] [true])) sample_kernel
                eq_refl) as [Hiff _].
    apply Hiff in H as [_ H]. discriminate H.
Defined.

(** ** Parameter skipping *)

Section Skipping.

Context (h : gmap N ConnParameter).

Lemma register_parameters_requiring_skipping_list (b : ConnBuilder) (p : N) :
  parameters_requiring_skipping_ (register_parameters_requiring_skipping_ h b p)
  = parameters_requiring_skipping_ b ++ (if is_array_at h p then [p] else []).
Proof.
  unfold register_parameters_requiring_skipping_, is_array_at.
  destruct (h !! p) as [c|]; [destruct (is_array c)|]; simpl;
    by rewrite ?app_nil_r.
Qed.

Lemma register_parameters_requiring_skipping_targets (b : ConnBuilder) (p : N) :
  targets_ (register_parameters_requiring_skipping_ h b p) = targets_ b.
Proof.
  unfold register_parameters_requiring_skipping_.
  destruct (h !! p) as [c|]; [destruct (is_array c)|]; done.
Qed.

Lemma register_all_list (params : list N) (b : ConnBuilder) :
  parameters_requiring_skipping_ (register_all h b params)
  = parameters_requiring_skipping_ b ++ filter (λ p, is_array_at h p = true) params.
Proof.
  unfold register_all. revert b.
  induction params as [|p params IH]; intros b; simpl.
  - by rewrite app_nil_r.
  - rewrite IH, register_parameters_requiring_skipping_list, <- app_assoc.
    f_equal. destruct (is_array_at h p) eqn:Hp.
    + by rewrite filter_cons_True.
    + rewrite filter_cons_False; [done|]. by rewrite Hp.
Qed.

Lemma register_all_targets (params : list N) (b : ConnBuilder) :
  targets_ (register_all h b params) = targets_ b.
Proof.
  unfold register_all. revert b.
  induction params as [|p params IH]; intros b; simpl; [done|].
  by rewrite IH, register_parameters_requiring_skipping_targets.
Qed.

Lemma is_array_at_Some (p : N) :
  is_array_at h p = true ↔ ∃ c, h !! p = Some c ∧ is_array c = true.
Proof.
  unfold is_array_at. destruct (h !! p) as [c|]; split.
  - eauto.
  - by intros (c' & [= <-] & ?).
  - discriminate.
  - by intros (c' & [=] & ?).
Qed.

End Skipping.

Lemma foldl_alter_not_elem_of (f : ConnParameter → ConnParameter)
    (l : list N) (h : gmap N ConnParameter) (p : N) :
  p ∉ l → foldl (λ h it, alter f it h) h l !! p = h !! p.
Proof.
  revert h. induction l as [|x l IH]; intros h Hp; simpl; [done|].
  apply not_elem_of_cons in Hp as [Hne Hp].
  rewrite IH by done. by apply lookup_alter_ne.
Qed.

Lemma foldl_alter_elem_of (f : ConnParameter → ConnParameter)
    (l : list N) (h : gmap N ConnParameter) (p : N) :
  NoDup l → p ∈ l → foldl (λ h it, alter f it h) h l !! p = f <$> h !! p.
Proof.
  revert h. induction l as [|x l IH]; intros h Hnd Hp; simpl.
  - by apply elem_of_nil in Hp.
  - apply NoDup_cons in Hnd as [Hx Hnd].
    destruct (decide (p = x)) as [->|Hne].
    + rewrite foldl_alter_not_elem_of by done. apply lookup_alter_eq.
    + apply elem_of_cons in Hp as [?|Hp]; [done|].
      rewrite IH by done. by rewrite lookup_alter_ne.
Qed.

Lemma skip_cursor_same (tid n : N) (c : ConnParameter) :
  is_array c = true → cursor (skip tid n c) tid = (cursor c tid + n)%N.
Proof.
  destruct c as [|values next|]; try discriminate. intros _. simpl.
  by rewrite lookup_insert_eq.
Qed.

Lemma skip_cursor_other (tid n t : N) (c : ConnParameter) :
  t ≠ tid → cursor (skip tid n c) t = cursor c t.
Proof.
  intros Hne. destruct c as [|values next|]; try done. simpl.
  by rewrite lookup_insert_ne.
Qed.

Lemma skip_is_array (tid n : N) (c : ConnParameter) :
  is_array (skip tid n c) = is_array c.
Proof. by destruct c. Qed.

(** C3. Let a builder register each of its parameters once. Then exactly
    the array-valued ones are in [parameters_requiring_skipping_], and for
    every worker [target_thread] and every count [n_skip],
    [skip_conn_parameter_] moves the cursor of that worker in every
    array-valued parameter by exactly [n_skip], leaves the cursors of the
    other workers and all other parameters as they were, and creates no
    edge. *)
Theorem skip_conn_parameter_advances_arrays
    (b0 : ConnBuilder) (params : list N) (k : Kernel) (target_thread n_skip : N) :
  parameters_requiring_skipping_ b0 = [] →
  NoDup params →
  (∀ p, p ∈ parameters_requiring_skipping_ (register_all (conn_parameters k) b0 params) ↔
        p ∈ params ∧ ∃ c, conn_parameters k !! p = Some c ∧ is_array c = true) ∧
  connections
    (skip_conn_parameter_ (register_all (conn_parameters k) b0 params)
       target_thread n_skip k) = connections k ∧
  (∀ p c, p ∈ params → conn_parameters k !! p = Some c → is_array c = true →
     ∃ c',
       conn_parameters
         (skip_conn_parameter_ (register_all (conn_parameters k) b0 params)
            target_thread n_skip k) !! p = Some c' ∧
       is_array c' = true ∧
       cursor c' target_thread = (cursor c target_thread + n_skip)%N ∧
       ∀ t, t ≠ target_thread → cursor c' t = cursor c t) ∧
  (∀ p, (p ∉ params ∨ ∃ c, conn_parameters k !! p = Some c ∧ is_array c = false) →
     conn_parameters
       (skip_conn_parameter_ (register_all (conn_parameters k) b0 params)
          target_thread n_skip k) !! p = conn_parameters k !! p).
Proof.
  intros Hfresh Hnd.
  assert (Hreg : ∀ p,
    p ∈ parameters_requiring_skipping_ (register_all (conn_parameters k) b0 params) ↔
    p ∈ params ∧ ∃ c, conn_parameters k !! p = Some c ∧ is_array c = true).
  { intros p. rewrite register_all_list, Hfresh. simpl.
    rewrite list_elem_of_filter, is_array_at_Some. tauto. }
  assert (Hnd' : NoDup
    (parameters_requiring_skipping_ (register_all (conn_parameters k) b0 params))).
  { rewrite register_all_list, Hfresh. simpl. by apply NoDup_filter. }
  split; [exact Hreg|]. split; [reflexivity|]. split.
  - intros p c Hp Hc Harr. exists (skip target_thread n_skip c).
    unfold skip_conn_parameter_. simpl.
    rewrite foldl_alter_elem_of by (done || (apply Hreg; eauto)).
    rewrite Hc. simpl. split; [done|]. rewrite skip_is_array. split; [done|].
    split; [by apply skip_cursor_same|]. intros t Ht. by apply skip_cursor_other.
  - intros p Hp. unfold skip_conn_parameter_. simpl.
    apply foldl_alter_not_elem_of. rewrite Hreg.
    intros [Hin (c & Hc & Harr)]. destruct Hp as [Hp | (c' & Hc' & Hna)]; [done|].
    congruence.
Qed.

Lemma skip_conn_parameter_advances_arrays_witness :
  ∃ c',
    conn_parameters
      (skip_conn_parameter_
         (register_all (conn_parameters sample_kernel)
            (plain_builder Bernoulli 10 11 false [0%N] [true]) [1; 2; 3; 4]%N)
         0 3 sample_kernel) !! 2%N = Some c' ∧
    is_array c' = true ∧
    cursor c' 0 = 7%N ∧
    cursor c' 1 = 0%N.
Proof.
  assert (Hnd : NoDup [1; 2; 3; 4]%N).
  { apply (bool_decide_unpack _). vm_compute. exact I. }
  destruct (proj1 (proj2 (proj2 (skip_conn_parameter_advances_arrays
              (plain_builder Bernoulli 10 11 false [0%N] [true]) [1; 2; 3; 4]%N
              sample_kernel 0 3 eq_refl Hnd)))
              2%N (Array [1; 2; 3; 4; 5; 6; 7; 8]%Z {[0%N := 4%N]}))
    as (c' & Hc' & Harr & Hsame & Hother).
  - set_solver.
  - reflexivity.
  - reflexivity.
  - exists c'. split; [exact Hc'|]. split; [exact Harr|]. split.
    + rewrite Hsame. reflexivity.
    + rewrite Hother by discriminate. reflexivity.
Defined.

(** ** Loop selection *)




(** ** The symmetric Bernoulli rule *)

Lemma accepted_app (o : nat → bool) (l1 l2 : list (N * N)) (pos : nat) :
  accepted o pos (l1 ++ l2) = accepted o pos l1 ++ accepted o (pos + length l1) l2.
Proof.
  revert pos. induction l1 as [|p l1 IH]; intros pos; simpl.
  - by rewrite Nat.add_0_r.
  - rewrite IH, <- app_assoc. do 3 f_equal. lia.
Qed.

Lemma elem_of_accepted (o : nat → bool) (ps : list (N * N)) (pos : nat) (p : N * N) :
  p ∈ accepted o pos ps ↔ ∃ n, ps !! n = Some p ∧ o (pos + n) = true.
Proof.
  revert pos. induction ps as [|q ps IH]; intros pos; simpl.
  - split; [by intros ?%elem_of_nil | by intros (n & ? & _)].
  - rewrite elem_of_app, IH. split.
    + intros [Hq | (n & Hn & Ho)].
      * destruct (o pos) eqn:Hpos; [|by apply elem_of_nil in Hq].
        apply list_elem_of_singleton in Hq as ->. exists 0. by rewrite Nat.add_0_r.
      * exists (S n). split; [done|]. by rewrite Nat.add_succ_r.
    + intros ([|n] & Hn & Ho); simpl in Hn.
      * left. injection Hn as ->. rewrite Nat.add_0_r in Ho. rewrite Ho.
        by apply list_elem_of_singleton.
      * right. exists n. split; [done|]. by rewrite Nat.add_succ_r in Ho.
Qed.

Lemma ordered_pairs_length (pop : list N) :
  2 * length (ordered_pairs pop) = length pop * (length pop - 1).
Proof.
  induction pop as [|a later IH]; simpl; [done|].
  rewrite length_app, length_fmap, Nat.sub_0_r.
  destruct later as [|c later]; simpl in *; [done|]. nia.
Qed.

Lemma elem_of_ordered_pairs (pop : list N) (a c : N) :
  (a, c) ∈ ordered_pairs pop ↔
    ∃ i j, i < j ∧ pop !! i = Some a ∧ pop !! j = Some c.
Proof.
  induction pop as [|x later IH]; simpl.
  - split; [by intros ?%elem_of_nil | by intros (i & j & _ & ? & _)].
  - rewrite elem_of_app, list_elem_of_fmap, IH. split.
    + intros [(y & [= -> ->] & Hy) | (i & j & Hij & Hi & Hj)].
      * apply list_elem_of_lookup in Hy as [j Hj].
        exists 0, (S j). split; [lia|]. done.
      * exists (S i), (S j). split; [lia|]. done.
    + intros (i & j & Hij & Hi & Hj).
      destruct j as [|j]; [lia|]. simpl in Hj.
      destruct i as [|i]; simpl in Hi.
      * left. injection Hi as ->. exists c. split; [done|].
        apply list_elem_of_lookup. eauto.
      * right. exists i, j. split; [lia|]. done.
Qed.

Lemma connect_pairs_from_effect (b : ConnBuilder) (a : N) (later : list N) (k : Kernel) :
  SymmetricBernoulliBuilder.connect_pairs_from b a later k
  = mkKernel (conn_parameters k) (node_collections k) (num_local_nodes k)
      (connections k ++
         concat (both_directions b <$>
                   accepted (outcomes (rng k)) (position (rng k)) (pair a <$> later)))
      (mkRng (outcomes (rng k)) (position (rng k) + length later)).
Proof.
  revert k. induction later as [|c later IH]; intros k; simpl.
  - destruct k as [h ncs n es [o pos]]; simpl.
    by rewrite app_nil_r, Nat.add_0_r.
  - rewrite IH. destruct k as [h ncs n es [o pos]]; simpl.
    destruct (o pos); simpl.
    + unfold both_directions at 2. simpl. unfold edges_between.
      rewrite <- !app_assoc. do 2 f_equal. lia.
    + do 2 f_equal. lia.
Qed.

Lemma connect_upper_triangle_effect (b : ConnBuilder) (pop : list N) (k : Kernel) :
  SymmetricBernoulliBuilder.connect_upper_triangle b pop k
  = mkKernel (conn_parameters k) (node_collections k) (num_local_nodes k)
      (connections k ++
         concat (both_directions b <$>
                   accepted (outcomes (rng k)) (position (rng k)) (ordered_pairs pop)))
      (mkRng (outcomes (rng k)) (position (rng k) + length (ordered_pairs pop))).
Proof.
  revert k. induction pop as [|a later IH]; intros k; simpl.
  - destruct k as [h ncs n es [o pos]]; simpl.
    by rewrite app_nil_r, Nat.add_0_r.
  - rewrite IH, connect_pairs_from_effect. simpl.
    rewrite accepted_app, fmap_app, concat_app, length_app, !length_fmap.
    rewrite <- app_assoc. do 2 f_equal. lia.
Qed.

Lemma elem_of_concat {A} (ls : list (list A)) (x : A) :
  x ∈ concat ls ↔ ∃ l, x ∈ l ∧ l ∈ ls.
Proof.
  induction ls as [|l0 ls IH]; simpl.
  - split; [by intros ?%elem_of_nil | by intros (l & _ & ?%elem_of_nil)].
  - rewrite elem_of_app, IH. split.
    + intros [H | (l & Hx & Hl)]; [exists l0 | exists l]; split; try done.
      * by left.
      * by right.
    + intros (l & Hx & Hl). apply elem_of_cons in Hl as [-> | Hl]; eauto.
Qed.

Lemma reciprocal_in_both_directions (b : ConnBuilder) (ps : list (N * N)) (e : Connection) :
  e ∈ concat (both_directions b <$> ps) →
  reciprocal e ∈ concat (both_directions b <$> ps).
Proof.
  intros He. apply elem_of_concat in He as (l & He & Hl).
  apply list_elem_of_fmap in Hl as (p & -> & Hp).
  apply elem_of_concat. exists (both_directions b p).
  split; [|by apply list_elem_of_fmap_2].
  unfold both_directions, edges_between in *.
  apply elem_of_app in He as [He | He];
    apply list_elem_of_fmap in He as (m & -> & Hm); apply elem_of_app;
    [right | left]; apply list_elem_of_fmap; by exists m.
Qed.

(** C2. When [connect] of a symmetric Bernoulli builder returns, the source
    handle is the target handle, the pairs tried are exactly the pairs of
    positions [i < j] of the population, one trial of the stream was drawn
    per such pair, each accepted pair contributed both of its directed
    edges, and hence every created edge has its reciprocal edge among the
    created ones. *)
Theorem symmetric_bernoulli_reciprocal
    (out_of_line : Rule → VirtualMember → ConnBuilder → Kernel → Outcome unit * Kernel)
    (b : ConnBuilder) (k k' : Kernel) :
  dynamic_class b = SymmetricBernoulli →
  connect out_of_line b k = (Return (), k') →
  sources_ b = targets_ b ∧
  ∃ nc created,
    node_collections k !! sources_ b = Some nc ∧
    (∀ a c, (a, c) ∈ ordered_pairs (nodes nc) ↔
       ∃ i j, i < j ∧ nodes nc !! i = Some a ∧ nodes nc !! j = Some c) ∧
    position (rng k') = position (rng k) + length (ordered_pairs (nodes nc)) ∧
    2 * length (ordered_pairs (nodes nc)) = length (nodes nc) * (length (nodes nc) - 1) ∧
    connections k' = connections k ++ created ∧
    created = concat (both_directions b <$>
                accepted (outcomes (rng k)) (position (rng k))
                  (ordered_pairs (nodes nc))) ∧
    (∀ s t m, mkConnection s t m ∈ created →
       mkConnection t s m ∈ created ∧ mkConnection t s m ∈ connections k').
Proof.
  intros Hcls Hret. unfold connect in Hret.
  destruct (make_symmetric_ b && negb (supports_symmetric b)); [discriminate|].
  destruct (use_structural_plasticity_ b).
  { unfold sp_connect_ in Hret. rewrite Hcls in Hret. discriminate. }
  unfold connect_ in Hret. rewrite Hcls in Hret.
  unfold SymmetricBernoulliBuilder.connect_ in Hret.
  case_bool_decide as Hsame; [|discriminate]. split; [exact Hsame|].
  destruct (node_collections k !! sources_ b) as [nc|] eqn:Hnc; [|discriminate].
  injection Hret as <-. rewrite connect_upper_triangle_effect. simpl.
  exists nc, (concat (both_directions b <$>
                accepted (outcomes (rng k)) (position (rng k))
                  (ordered_pairs (nodes nc)))).
  split; [done|]. split; [apply elem_of_ordered_pairs|]. split; [done|].
  split; [apply ordered_pairs_length|]. split; [done|]. split; [done|].
  intros s t m He. apply reciprocal_in_both_directions in He.
  split; [exact He|]. apply elem_of_app. by right.
Qed.

Lemma symmetric_bernoulli_reciprocal_witness :
  connections
    (connect no_op_bodies (plain_builder SymmetricBernoulli 11 11 true [0%N] [true])
       sample_kernel).2
  = [mkConnection 1 2 0; mkConnection 7 3 0; mkConnection 3 7 0;
     mkConnection 3 9 0; mkConnection 9 3 0] ∧
  position
    (rng (connect no_op_bodies (plain_builder SymmetricBernoulli 11 11 true [0%N] [true])
            sample_kernel).2) = 3 ∧
  mkConnection 3 7 0 ∈
    connections
      (connect no_op_bodies (plain_builder SymmetricBernoulli 11 11 true [0%N] [true])
         sample_kernel).2.
Proof.
  destruct (symmetric_bernoulli_reciprocal no_op_bodies
              (plain_builder SymmetricBernoulli 11 11 true [0%N] [true])
              sample_kernel
              (connect no_op_bodies
                 (plain_builder SymmetricBernoulli 11 11 true [0%N] [true])
                 sample_kernel).2
              eq_refl eq_refl)
    as (_ & nc & created & Hnc & _ & Hpos & _ & Hconn & Hcreated & Hrec).
  vm_compute in Hnc. injection Hnc as <-.
  split; [|split].
  - rewrite Hconn, Hcreated. reflexivity.
  - rewrite Hpos. reflexivity.
  - apply (Hrec 7%N 3%N 0%N). rewrite Hcreated. simpl. left.
Defined.

(** * Further properties of the header's members *)

(** ** The single-model accessors on every slot count *)

(** X1. [get_synapse_model] returns a value only for a builder with exactly
    one synapse-model slot, and then that slot's id; it throws exactly when
    there are several slots, always the same [KernelException]; and it is
    undefined exactly when there is no slot at all. *)
Theorem get_synapse_model_cases (b : ConnBuilder) :
  (∀ m, get_synapse_model b = Return m ↔ synapse_model_id_ b = [m]) ∧
  (∀ e, get_synapse_model b = Throw e ↔
     (1 < length (synapse_model_id_ b))%nat ∧
     e = KernelException
           "Can only retrieve synapse model when one synapse per connection is used.") ∧
  (get_synapse_model b = Undefined ↔ synapse_model_id_ b = []).
Proof.
  unfold get_synapse_model.
  destruct (decide (1 < length (synapse_model_id_ b))%nat) as [Hmany | Hfew].
  - rewrite bool_decide_eq_true_2 by done.
    split; [|split]; [intros m | intros e |]; split; try done.
    + intros Hm. rewrite Hm in Hmany. simpl in Hmany. lia.
    + by intros [= <-].
    + by intros [_ ->].
    + intros Hm. rewrite Hm in Hmany. simpl in Hmany. lia.
  - rewrite bool_decide_eq_false_2 by done.
    destruct (synapse_model_id_ b) as [|m0 [|m1 l]]; simpl in *; [| |lia].
    + split; [|split]; [intros m | intros e |]; split; try done.
      intros [? _]. lia.
    + split; [|split]; [intros m | intros e |]; split; try done.
      * by intros [= ->].
      * by intros [= ->].
      * intros [? _]. lia.
Qed.

(** X2. [get_default_delay] is guarded by the number of synapse models, not
    by the number of default-delay flags: it throws exactly when
    [get_synapse_model] throws, and otherwise answers from the first flag
    alone, being undefined exactly when there is no flag. *)
Theorem get_default_delay_cases (b : ConnBuilder) :
  ((∃ e, get_default_delay b = Throw e) ↔ (∃ e, get_synapse_model b = Throw e)) ∧
  (∀ d, get_default_delay b = Return d ↔
     (length (synapse_model_id_ b) ≤ 1)%nat ∧ default_delay_ b !! 0%nat = Some d) ∧
  (get_default_delay b = Undefined ↔
     (length (synapse_model_id_ b) ≤ 1)%nat ∧ default_delay_ b = []).
Proof.
  unfold get_default_delay, get_synapse_model.
  destruct (decide (1 < length (synapse_model_id_ b))%nat) as [Hmany | Hfew].
  - rewrite !bool_decide_eq_true_2 by done.
    split; [|split]; [| intros d |]; split; eauto; try done;
      intros [? _]; lia.
  - rewrite !bool_decide_eq_false_2 by done.
    assert (Hle : (length (synapse_model_id_ b) ≤ 1)%nat) by lia.
    split; [|split]; [| intros d |].
    + split; intros [e He].
      * destruct (default_delay_ b !! 0%nat); discriminate.
      * destruct (synapse_model_id_ b !! 0%nat); discriminate.
    + destruct (default_delay_ b) as [|d0 l]; simpl; split; try done.
      * by intros [_ ?].
      * by intros [= ->].
      * by intros [_ [= ->]].
    + destruct (default_delay_ b) as [|d0 l]; simpl; split; try done.
      by intros [_ ?].
Qed.

(** X3. When the builder keeps one default-delay flag per synapse model,
    the two accessors agree on every slot count: both return with one
    slot, both throw with several, both are undefined with none. *)
Theorem single_model_accessors_agree (b : ConnBuilder) :
  length (default_delay_ b) = length (synapse_model_id_ b) →
  ((∃ m, get_synapse_model b = Return m) ↔ (∃ d, get_default_delay b = Return d)) ∧
  ((∃ m, get_synapse_model b = Return m) ↔ length (synapse_model_id_ b) = 1%nat) ∧
  (get_synapse_model b = Undefined ↔ get_default_delay b = Undefined).
Proof.
  intros Hlen. unfold get_synapse_model, get_default_delay.
  destruct (decide (1 < length (synapse_model_id_ b))%nat) as [Hmany | Hfew].
  - rewrite !bool_decide_eq_true_2 by done.
    split; [|split]; split; try done; try (by intros [? ?]). lia.
  - rewrite !bool_decide_eq_false_2 by done.
    destruct (synapse_model_id_ b) as [|m0 [|m1 l]];
      destruct (default_delay_ b) as [|d0 [|d1 l']];
      simpl in Hlen, Hfew; try discriminate; try lia; simpl.
    + split; [|split]; split; try done; by intros [? ?].
    + split; [|split]; split; try done; eauto.
Qed.

Lemma single_model_accessors_agree_witness :
  (∃ m, get_synapse_model (plain_builder Bernoulli 10 11 false [8]%N [true]) = Return m) ↔
  (∃ d, get_default_delay (plain_builder Bernoulli 10 11 false [8]%N [true]) = Return d).
Proof.
  apply (single_model_accessors_agree (plain_builder Bernoulli 10 11 false [8]%N [true])).
  reflexivity.
Defined.

(** ** The virtual predicates across the rules *)

(** X4. Only an all-to-all builder can report [is_symmetric], and only
    when its two handles are the same population; a rule that accepts
    [make_symmetric] (one-to-one, symmetric Bernoulli) never reports
    [is_symmetric], so no builder has both predicates true. *)
Theorem is_symmetric_excludes_supports_symmetric (b : ConnBuilder) (k : Kernel) :
  (is_symmetric b k = true →
     dynamic_class b = AllToAll ∧ sources_ b = targets_ b ∧
     requires_proxies b = false) ∧
  (supports_symmetric b = true → is_symmetric b k = false) ∧
  (sources_ b ≠ targets_ b → is_symmetric b k = false).
Proof.
  unfold is_symmetric, supports_symmetric, requires_proxies.
  unfold AllToAllBuilder.is_symmetric.
  destruct (dynamic_class b); simpl; (split; [|split]); try done.
  - intros Hsym. apply andb_true_iff in Hsym as [Hs _].
    apply bool_decide_eq_true in Hs. done.
  - intros Hne. by rewrite bool_decide_eq_false_2.
Qed.

(** X5. The three optional members come together: a rule overrides
    [disconnect_] exactly when it overrides [sp_connect_] and
    [sp_disconnect_], and these are exactly the rules whose
    [requires_proxies] is false; [connect_] is defined by every rule. *)
Theorem optional_members_come_together (b : ConnBuilder) :
  overrides (dynamic_class b) m_connect_ = true ∧
  (∀ m m', m ≠ m_connect_ → m' ≠ m_connect_ →
     overrides (dynamic_class b) m = overrides (dynamic_class b) m') ∧
  (∀ m, m ≠ m_connect_ →
     overrides (dynamic_class b) m = negb (requires_proxies b)) ∧
  (supports_symmetric b = true → requires_proxies b = false →
     dynamic_class b = OneToOne).
Proof.
  unfold requires_proxies, supports_symmetric.
  destruct (dynamic_class b); simpl; repeat split; try done;
    try (intros [] [] ? ?; done); try (intros [] ?; done).
Qed.

(** ** Registration *)

(** The data members other than [parameters_requiring_skipping_]. *)
Lemma register_all_fields (h : gmap N ConnParameter) (params : list N) (b : ConnBuilder) :
  dynamic_class (register_all h b params) = dynamic_class b ∧
  sources_ (register_all h b params) = sources_ b ∧
  make_symmetric_ (register_all h b params) = make_symmetric_ b ∧
  pre_synaptic_element_name_ (register_all h b params) = pre_synaptic_element_name_ b ∧
  post_synaptic_element_name_ (register_all h b params) = post_synaptic_element_name_ b ∧
  use_pre_synaptic_element_ (register_all h b params) = use_pre_synaptic_element_ b ∧
  use_post_synaptic_element_ (register_all h b params) = use_post_synaptic_element_ b ∧
  synapse_model_id_ (register_all h b params) = synapse_model_id_ b ∧
  default_delay_ (register_all h b params) = default_delay_ b ∧
  weights_ (register_all h b params) = weights_ b ∧
  delays_ (register_all h b params) = delays_ b ∧
  synapse_params_ (register_all h b params) = synapse_params_ b.
Proof.
  unfold register_all. revert b.
  induction params as [|p params IH]; intros b; simpl; [repeat split|].
  destruct (IH (register_parameters_requiring_skipping_ h b p))
    as (-> & -> & -> & -> & -> & -> & -> & -> & -> & -> & -> & ->).
  unfold register_parameters_requiring_skipping_.
  destruct (h !! p) as [c|]; [destruct (is_array c)|]; repeat split.
Qed.

Lemma occurrences_filter (P : N → Prop) `{!∀ x, Decision (P x)} (l : list N) (p : N) :
  occurrences (filter P l) p = if decide (P p) then occurrences l p else 0.
Proof.
  unfold occurrences. induction l as [|x l IH].
  - by destruct (decide (P p)).
  - destruct (decide (P x)) as [HPx | HPx].
    + rewrite (filter_cons_True P) by done.
      destruct (decide (x = p)) as [-> | Hne].
      * rewrite !(filter_cons_True (λ y, y = p)) by done. simpl. rewrite IH.
        by rewrite !decide_True.
      * rewrite !(filter_cons_False (λ y, y = p)) by done. exact IH.
    + rewrite (filter_cons_False P) by done. rewrite IH.
      destruct (decide (x = p)) as [-> | Hne].
      * by rewrite !decide_False.
      * by rewrite (filter_cons_False (λ y, y = p)).
Qed.

(** X6. Registering a series of parameters keeps the entries already
    registered, in place, and appends after them the array parameters of
    the series in the order given, one entry per occurrence: a parameter
    registered twice is listed twice, a parameter that is not an array is
    never listed. *)
Theorem register_all_appends_arrays_in_order
    (h : gmap N ConnParameter) (b : ConnBuilder) (params : list N) :
  parameters_requiring_skipping_ (register_all h b params)
    = parameters_requiring_skipping_ b ++ filter (λ p, is_array_at h p = true) params ∧
  (∀ p, times_registered (register_all h b params) p
        = times_registered b p
          + (if is_array_at h p then occurrences params p else 0)) ∧
  (length (parameters_requiring_skipping_ b)
     ≤ length (parameters_requiring_skipping_ (register_all h b params))
     ≤ length (parameters_requiring_skipping_ b) + length params)%nat.
Proof.
  assert (Hlist := register_all_list h params b).
  split; [exact Hlist|]. split.
  - intros p. unfold times_registered. rewrite Hlist, filter_app, length_app.
    f_equal. fold (occurrences (filter (λ p, is_array_at h p = true) params) p).
    rewrite occurrences_filter. destruct (is_array_at h p).
    + by rewrite decide_True.
    + by rewrite decide_False.
  - rewrite Hlist, length_app.
    pose proof (length_filter (λ p, is_array_at h p = true) params). lia.
Qed.

Lemma register_step_record (h : gmap N ConnParameter) (b : ConnBuilder) (p : N) :
  register_parameters_requiring_skipping_ h b p
  = set_parameters_requiring_skipping_
      (parameters_requiring_skipping_ b ++ (if is_array_at h p then [p] else [])) b.
Proof.
  unfold register_parameters_requiring_skipping_, is_array_at.
  destruct (h !! p) as [c|]; [destruct (is_array c)|];
    destruct b; unfold set_parameters_requiring_skipping_,
      push_back_parameters_requiring_skipping_; simpl; by rewrite ?app_nil_r.
Qed.

Lemma register_all_record (h : gmap N ConnParameter) (params : list N) (b : ConnBuilder) :
  register_all h b params
  = set_parameters_requiring_skipping_
      (parameters_requiring_skipping_ b ++ filter (λ p, is_array_at h p = true) params) b.
Proof.
  revert b. induction params as [|p params IH]; intros b.
  - unfold register_all. simpl. destruct b.
    unfold set_parameters_requiring_skipping_. simpl. by rewrite app_nil_r.
  - change (register_all h b (p :: params))
      with (register_all h (register_parameters_requiring_skipping_ h b p) params).
    rewrite IH, register_step_record.
    unfold set_parameters_requiring_skipping_. simpl. f_equal.
    rewrite <- app_assoc. f_equal. destruct (is_array_at h p) eqn:Hp.
    + by rewrite filter_cons_True.
    + rewrite filter_cons_False; [done|]. by rewrite Hp.
Qed.

(** X7. Registration changes nothing but the list of parameters to skip:
    the accessors, the mode and the virtual predicates of the builder
    answer after it as before, and the builder after it is the builder
    before it with the new list, every other data member being kept. *)
Theorem register_all_keeps_configuration
    (h : gmap N ConnParameter) (b : ConnBuilder) (params : list N) (k : Kernel) :
  register_all h b params
    = set_parameters_requiring_skipping_
        (parameters_requiring_skipping_ b ++ filter (λ p, is_array_at h p = true) params)
        b ∧
  dynamic_class (register_all h b params) = dynamic_class b ∧
  get_synapse_model (register_all h b params) = get_synapse_model b ∧
  get_default_delay (register_all h b params) = get_default_delay b ∧
  use_structural_plasticity_ (register_all h b params) = use_structural_plasticity_ b ∧
  supports_symmetric (register_all h b params) = supports_symmetric b ∧
  is_symmetric (register_all h b params) k = is_symmetric b k ∧
  requires_proxies (register_all h b params) = requires_proxies b ∧
  SPBuilder.get_pre_synaptic_element_name (register_all h b params)
    = SPBuilder.get_pre_synaptic_element_name b ∧
  SPBuilder.get_post_synaptic_element_name (register_all h b params)
    = SPBuilder.get_post_synaptic_element_name b.
Proof.
  split; [apply register_all_record|].
  destruct (register_all_fields h params b)
    as (Hc & Hs & Hm & Hpre & Hpost & Hup & Hupo & Hid & Hdd & Hw & Hd & Hsp).
  pose proof (register_all_targets h params b) as Ht.
  unfold get_synapse_model, get_default_delay, use_structural_plasticity_,
    supports_symmetric, is_symmetric, requires_proxies,
    AllToAllBuilder.is_symmetric, all_parameters_scalar_, parameter_pointers,
    SPBuilder.get_pre_synaptic_element_name, SPBuilder.get_post_synaptic_element_name.
  rewrite Hc, Hs, Ht, Hpre, Hpost, Hup, Hupo, Hid, Hdd, Hw, Hd, Hsp.
  repeat split.
Qed.

(** ** Skipping, call after call *)

Lemma occurrences_cons (x p : N) (l : list N) :
  occurrences (x :: l) p = (if decide (x = p) then 1 else 0) + occurrences l p.
Proof.
  unfold occurrences. destruct (decide (x = p)) as [Heq | Hne].
  - by rewrite filter_cons_True.
  - by rewrite filter_cons_False.
Qed.

Lemma iter_shift {A} (f : A → A) (n : nat) (x : A) :
  Nat.iter n f (f x) = f (Nat.iter n f x).
Proof. induction n as [|n IH]; simpl; [done | by rewrite IH]. Qed.

Lemma foldl_alter_lookup (f : ConnParameter → ConnParameter)
    (l : list N) (h : gmap N ConnParameter) (p : N) :
  foldl (λ h it, alter f it h) h l !! p = Nat.iter (occurrences l p) f <$> h !! p.
Proof.
  revert h. induction l as [|x l IH]; intros h; simpl.
  - by destruct (h !! p).
  - rewrite IH, occurrences_cons. destruct (decide (x = p)) as [-> | Hne].
    + rewrite lookup_alter_eq. destruct (h !! p) as [c|]; simpl; [|done].
      by rewrite iter_shift.
    + by rewrite lookup_alter_ne.
Qed.

Lemma skip_skip (tid n m : N) (c : ConnParameter) :
  skip tid n (skip tid m c) = skip tid (m + n) c.
Proof.
  destruct c as [|values next|]; try done. simpl.
  rewrite lookup_insert_eq, insert_insert_eq. simpl. do 2 f_equal. lia.
Qed.

Lemma skip_comm (t1 t2 n m : N) (c : ConnParameter) :
  skip t1 n (skip t2 m c) = skip t2 m (skip t1 n c).
Proof.
  destruct (decide (t1 = t2)) as [-> | Hne].
  - rewrite !skip_skip. f_equal. lia.
  - destruct c as [|values next|]; try done. simpl.
    rewrite !lookup_insert_ne by done. f_equal. by apply insert_insert_ne.
Qed.

Lemma iter_skip (tid n : N) (j : nat) (c : ConnParameter) :
  Nat.iter (S j) (skip tid n) c = skip tid (N.of_nat (S j) * n) c.
Proof.
  induction j as [|j IH].
  - simpl. f_equal. lia.
  - change (Nat.iter (S (S j)) (skip tid n) c)
      with (skip tid n (Nat.iter (S j) (skip tid n) c)).
    rewrite IH, skip_skip. f_equal. lia.
Qed.

Lemma iter_skip_is_array (tid n : N) (j : nat) (c : ConnParameter) :
  is_array (Nat.iter j (skip tid n) c) = is_array c ∧
  is_scalar (Nat.iter j (skip tid n) c) = is_scalar c.
Proof.
  destruct j as [|j]; [done|]. rewrite iter_skip. by destruct c.
Qed.

Lemma iter_skip_not_array (tid n : N) (j : nat) (c : ConnParameter) :
  is_array c = false → Nat.iter j (skip tid n) c = c.
Proof.
  intros Hc. destruct j as [|j]; [done|]. rewrite iter_skip.
  by destruct c.
Qed.

Lemma kernel_eq (k1 k2 : Kernel) :
  conn_parameters k1 = conn_parameters k2 →
  node_collections k1 = node_collections k2 →
  num_local_nodes k1 = num_local_nodes k2 →
  connections k1 = connections k2 →
  rng k1 = rng k2 →
  k1 = k2.
Proof. destruct k1, k2; simpl; by intros -> -> -> -> ->. Qed.

Lemma skip_conn_parameter_lookup (b : ConnBuilder) (tid n : N) (k : Kernel) (p : N) :
  conn_parameters (skip_conn_parameter_ b tid n k) !! p
  = Nat.iter (times_registered b p) (skip tid n) <$> conn_parameters k !! p.
Proof. unfold skip_conn_parameter_. simpl. apply foldl_alter_lookup. Qed.

(** X8. One call of [skip_conn_parameter_] calls [skip] once per entry of
    the list: an array parameter listed several times has the cursor of
    the worker moved by [n_skip] for each of its entries, one that is not
    listed is not moved, and a parameter that is not an array is left as it
    is however often it is listed. The cursors of other workers stay. *)
Theorem skip_conn_parameter_per_registration
    (b : ConnBuilder) (k : Kernel) (target_thread n_skip p : N) (c : ConnParameter) :
  conn_parameters k !! p = Some c →
  ∃ c',
    conn_parameters (skip_conn_parameter_ b target_thread n_skip k) !! p = Some c' ∧
    is_array c' = is_array c ∧
    (is_array c = true →
       cursor c' target_thread
       = (cursor c target_thread + N.of_nat (times_registered b p) * n_skip)%N) ∧
    (is_array c = false → c' = c) ∧
    (∀ t, t ≠ target_thread → cursor c' t = cursor c t).
Proof.
  intros Hc. rewrite skip_conn_parameter_lookup, Hc. simpl.
  eexists. split; [reflexivity|]. split; [apply iter_skip_is_array|].
  split; [|split].
  - intros Harr. destruct (times_registered b p) as [|j].
    + simpl. lia.
    + rewrite iter_skip. by apply skip_cursor_same.
  - intros Hna. by apply iter_skip_not_array.
  - intros t Ht. destruct (times_registered b p) as [|j]; [done|].
    rewrite iter_skip. by apply skip_cursor_other.
Qed.

Lemma skip_conn_parameter_per_registration_witness :
  ∃ c',
    conn_parameters
      (skip_conn_parameter_
         (register_all sample_parameters
            (plain_builder Bernoulli 10 11 false [0%N] [true]) [2; 3; 2; 1]%N)
         0 3 sample_kernel) !! 2%N = Some c' ∧
    cursor c' 0 = 10%N.
Proof.
  destruct (skip_conn_parameter_per_registration
              (register_all sample_parameters
                 (plain_builder Bernoulli 10 11 false [0%N] [true]) [2; 3; 2; 1]%N)
              sample_kernel 0 3 2 (Array [1; 2; 3; 4; 5; 6; 7; 8]%Z {[0%N := 4%N]})
              eq_refl)
    as (c' & Hc' & _ & Hcur & _ & _).
  exists c'. split; [exact Hc'|]. rewrite Hcur by reflexivity. reflexivity.
Defined.

(** X9. Skips of one worker add up: skipping [m] and then [n] leaves the
    kernel exactly as one skip of [m + n] does, whatever the builder has
    registered. *)
Theorem skip_conn_parameter_adds_up (b : ConnBuilder) (tid m n : N) (k : Kernel) :
  skip_conn_parameter_ b tid n (skip_conn_parameter_ b tid m k)
  = skip_conn_parameter_ b tid (m + n) k.
Proof.
  apply kernel_eq; try reflexivity. apply map_eq. intros p.
  rewrite !skip_conn_parameter_lookup.
  destruct (conn_parameters k !! p) as [c|]; simpl; [|done]. f_equal.
  destruct (times_registered b p) as [|j]; [done|].
  rewrite !iter_skip, skip_skip. f_equal. lia.
Qed.

(** X10. Skips commute: the order in which two skips are made, for the
    same worker or for two workers, does not matter for the resulting
    kernel state. *)
Theorem skip_conn_parameter_commutes (b : ConnBuilder) (t1 t2 n m : N) (k : Kernel) :
  skip_conn_parameter_ b t1 n (skip_conn_parameter_ b t2 m k)
  = skip_conn_parameter_ b t2 m (skip_conn_parameter_ b t1 n k).
Proof.
  apply kernel_eq; try reflexivity. apply map_eq. intros p.
  rewrite !skip_conn_parameter_lookup.
  destruct (conn_parameters k !! p) as [c|]; simpl; [|done]. f_equal.
  destruct (times_registered b p) as [|j]; [done|].
  rewrite !iter_skip. apply skip_comm.
Qed.

(** ** What skipping leaves alone *)

Lemma skip_conn_parameter_kinds (b : ConnBuilder) (tid n : N) (k : Kernel) (p : N) :
  is_array_at (conn_parameters (skip_conn_parameter_ b tid n k)) p
    = is_array_at (conn_parameters k) p ∧
  is_scalar_at (conn_parameters (skip_conn_parameter_ b tid n k)) p
    = is_scalar_at (conn_parameters k) p.
Proof.
  unfold is_array_at, is_scalar_at. rewrite skip_conn_parameter_lookup.
  destruct (conn_parameters k !! p) as [c|]; simpl; [|done].
  apply iter_skip_is_array.
Qed.

Lemma forallb_ext_pointwise {A} (f g : A → bool) (l : list A) :
  (∀ x, f x = g x) → forallb f l = forallb g l.
Proof. intros Hfg. induction l as [|x l IH]; simpl; [done|]. by rewrite Hfg, IH. Qed.

Lemma same_except_cursor_refl (tid : N) (c : ConnParameter) :
  same_except_cursor tid c c.
Proof. by destruct c. Qed.

Lemma same_except_cursor_skip (tid n : N) (c : ConnParameter) :
  same_except_cursor tid c (skip tid n c).
Proof.
  destruct c as [|values next|]; simpl; try done.
  split; [done|]. intros t Ht. by apply lookup_insert_ne.
Qed.

Lemma same_except_cursor_iter_skip (tid n : N) (j : nat) (c : ConnParameter) :
  same_except_cursor tid c (Nat.iter j (skip tid n) c).
Proof.
  destruct j as [|j]; [apply same_except_cursor_refl|].
  rewrite iter_skip. apply same_except_cursor_skip.
Qed.

(** X11. [skip_conn_parameter_] touches nothing but cursors: it creates and
    destroys no parameter, every parameter after the call is the one before
    it but for the cursor of [target_thread] (same kind, same values, same
    cursors of the other workers; a parameter that is not an array is
    unchanged), and the populations, the edges and the random stream are
    as they were; so for every builder the answers of [is_symmetric] and
    of the loop selection are the same after a skip as before. *)
Theorem skip_conn_parameter_moves_cursors_only
    (b : ConnBuilder) (target_thread n_skip : N) (k : Kernel) :
  (∀ p c, conn_parameters k !! p = Some c →
     ∃ c',
       conn_parameters (skip_conn_parameter_ b target_thread n_skip k) !! p = Some c' ∧
       same_except_cursor target_thread c c' ∧
       (is_array c = false → c' = c)) ∧
  (∀ p, conn_parameters k !! p = None →
     conn_parameters (skip_conn_parameter_ b target_thread n_skip k) !! p = None) ∧
  node_collections (skip_conn_parameter_ b target_thread n_skip k) = node_collections k ∧
  num_local_nodes (skip_conn_parameter_ b target_thread n_skip k) = num_local_nodes k ∧
  connections (skip_conn_parameter_ b target_thread n_skip k) = connections k ∧
  rng (skip_conn_parameter_ b target_thread n_skip k) = rng k ∧
  dom (conn_parameters (skip_conn_parameter_ b target_thread n_skip k))
    = dom (conn_parameters k) ∧
  (∀ p, is_array_at (conn_parameters (skip_conn_parameter_ b target_thread n_skip k)) p
        = is_array_at (conn_parameters k) p) ∧
  (∀ b', all_parameters_scalar_ b' (skip_conn_parameter_ b target_thread n_skip k)
         = all_parameters_scalar_ b' k ∧
         is_symmetric b' (skip_conn_parameter_ b target_thread n_skip k)
         = is_symmetric b' k ∧
         loop_over_targets_ b' (skip_conn_parameter_ b target_thread n_skip k)
         = loop_over_targets_ b' k).
Proof.
  split; [|split].
  { intros p c Hc. rewrite skip_conn_parameter_lookup, Hc. simpl.
    eexists. split; [reflexivity|]. split.
    - apply same_except_cursor_iter_skip.
    - intros Hna. by apply iter_skip_not_array. }
  { intros p Hp. by rewrite skip_conn_parameter_lookup, Hp. }
  repeat split; try reflexivity.
  - apply set_eq. intros p. rewrite !elem_of_dom, skip_conn_parameter_lookup.
    apply fmap_is_Some.
  - apply skip_conn_parameter_kinds.
  - unfold all_parameters_scalar_. apply forallb_ext_pointwise.
    intros p. apply skip_conn_parameter_kinds.
  - unfold is_symmetric, AllToAllBuilder.is_symmetric, all_parameters_scalar_.
    destruct (dynamic_class b'); try reflexivity. f_equal.
    apply forallb_ext_pointwise. intros p. apply skip_conn_parameter_kinds.
Qed.

Lemma is_symmetric_register_all (h : gmap N ConnParameter) (b : ConnBuilder)
    (params : list N) (k : Kernel) :
  is_symmetric (register_all h b params) k = is_symmetric b k.
Proof.
  destruct (register_all_fields h params b)
    as (Hc & Hs & _ & _ & _ & _ & _ & _ & _ & Hw & Hd & Hsp).
  pose proof (register_all_targets h params b) as Ht.
  unfold is_symmetric, AllToAllBuilder.is_symmetric, all_parameters_scalar_,
    parameter_pointers.
  by rewrite Hc, Hs, Ht, Hw, Hd, Hsp.
Qed.

Lemma register_all_no_arrays (h : gmap N ConnParameter) (b : ConnBuilder) (params : list N) :
  parameters_requiring_skipping_ b = [] →
  (∀ p, p ∈ params → is_array_at h p = false) →
  parameters_requiring_skipping_ (register_all h b params) = [].
Proof.
  intros Hfresh Hna. rewrite register_all_list, Hfresh, app_nil_l.
  destruct (filter _ params) as [|x l] eqn:Hf; [done|]. exfalso.
  assert (Hx : x ∈ filter (λ p, is_array_at h p = true) params) by (rewrite Hf; left).
  apply list_elem_of_filter in Hx as [Harr Hin]. rewrite (Hna _ Hin) in Harr. done.
Qed.

Lemma skip_nothing_registered (b : ConnBuilder) (tid n : N) (k : Kernel) :
  parameters_requiring_skipping_ b = [] → skip_conn_parameter_ b tid n k = k.
Proof. intros Hnil. unfold skip_conn_parameter_. rewrite Hnil. by destruct k. Qed.

(** X12. A builder none of whose parameters is an array registers nothing,
    and every skip on it, for any worker and any count, returns the kernel
    state unchanged. *)
Theorem skip_without_arrays_is_identity
    (b0 : ConnBuilder) (params : list N) (k : Kernel) (target_thread n_skip : N) :
  parameters_requiring_skipping_ b0 = [] →
  (∀ p, p ∈ params → is_array_at (conn_parameters k) p = false) →
  parameters_requiring_skipping_ (register_all (conn_parameters k) b0 params) = [] ∧
  skip_conn_parameter_ (register_all (conn_parameters k) b0 params)
    target_thread n_skip k = k.
Proof.
  intros Hfresh Hna.
  pose proof (register_all_no_arrays _ _ _ Hfresh Hna) as Hnil.
  split; [exact Hnil|]. by apply skip_nothing_registered.
Qed.

Lemma skip_without_arrays_is_identity_witness :
  skip_conn_parameter_
    (register_all (conn_parameters sample_kernel)
       (plain_builder Bernoulli 10 11 false [0%N] [true]) [1; 4; 1]%N)
    0 3 sample_kernel = sample_kernel.
Proof.
  apply (skip_without_arrays_is_identity
           (plain_builder Bernoulli 10 11 false [0%N] [true]) [1; 4; 1]%N
           sample_kernel 0 3 eq_refl).
  intros p Hp.
  repeat (apply elem_of_cons in Hp as [-> | Hp]; [reflexivity|]).
  by apply elem_of_nil in Hp.
Defined.

(** X13. An all-to-all builder that reports [is_symmetric] needs no
    skipping: once its own parameters are registered the list of
    parameters to skip is still empty, it still reports [is_symmetric],
    and every skip returns the kernel state unchanged. *)
Theorem symmetric_all_to_all_needs_no_skipping
    (b : ConnBuilder) (k : Kernel) (target_thread n_skip : N) :
  parameters_requiring_skipping_ b = [] →
  is_symmetric b k = true →
  parameters_requiring_skipping_
    (register_all (conn_parameters k) b (parameter_pointers b)) = [] ∧
  is_symmetric (register_all (conn_parameters k) b (parameter_pointers b)) k = true ∧
  skip_conn_parameter_ (register_all (conn_parameters k) b (parameter_pointers b))
    target_thread n_skip k = k.
Proof.
  intros Hfresh Hsym.
  assert (Hscalar : all_parameters_scalar_ b k = true).
  { unfold is_symmetric in Hsym. destruct (dynamic_class b); try discriminate.
    unfold AllToAllBuilder.is_symmetric in Hsym.
    by apply andb_true_iff in Hsym as [_ ?]. }
  assert (Hna : ∀ p, p ∈ parameter_pointers b →
                     is_array_at (conn_parameters k) p = false).
  { intros p Hp.
    destruct (proj1 (all_parameters_scalar_spec b k) Hscalar p Hp) as [v Hv].
    unfold is_array_at. by rewrite Hv. }
  pose proof (register_all_no_arrays _ _ _ Hfresh Hna) as Hnil.
  split; [exact Hnil|]. split.
  - by rewrite is_symmetric_register_all.
  - by apply skip_nothing_registered.
Qed.

Lemma symmetric_all_to_all_needs_no_skipping_witness :
  skip_conn_parameter_
    (register_all (conn_parameters sample_kernel)
       (with_parameters [Some 1%N] [None] [{["tau" := 1%N]}]
          (plain_builder AllToAll 10 10 false [0%N] [true]))
       (parameter_pointers
          (with_parameters [Some 1%N] [None] [{["tau" := 1%N]}]
             (plain_builder AllToAll 10 10 false [0%N] [true]))))
    2 5 sample_kernel = sample_kernel.
Proof.
  apply (symmetric_all_to_all_needs_no_skipping
           (with_parameters [Some 1%N] [None] [{["tau" := 1%N]}]
              (plain_builder AllToAll 10 10 false [0%N] [true]))
           sample_kernel 2 5 eq_refl).
  vm_compute. reflexivity.
Defined.
